(** * oneflow/python/ops/reduce_sum.py: the [reduce_sum] operator builder

    A shallow embedding of [reduce_sum] and of the collaborators it calls,
    followed by the properties of the builder.

    The Python function mutates three pieces of process state: the standard
    output (the int8 warning), the unique-id counter behind
    [id_util.UniqueStr], and the job under construction behind
    [compile_context.CurJobAddOp].  They are the fields of [world]; the
    function is a computation in the state monad over [world].  The caller's
    mutable [list] objects live in a store that is part of [world] as well,
    so that a list given as [axis] is a reference and not a value.

    Arguments are well typed: [axis] is [None], an integer, or a list or a
    tuple of integers; [keepdims] is a boolean; [name] is [None] or a
    string.  [reduce_sum] is the run of a call that returns;
    [Outcome.reduce_sum] is the same function with the one outcome in which
    such a call raises, an [axis] element that does not fit the field. *)

From Stdlib Require Import String List ZArith Bool Arith Lia.
From Stdlib Require Import Decimal DecimalNat DecimalString.
From ExtLib Require Import Structures.Monad Data.Monads.StateMonad.
From ExtLib Require Import Structures.MonadExc Structures.MonadTrans.
From ExtLib Require Import Data.Monads.EitherMonad.
Import ListNotations.
Import MonadNotation.

Local Open Scope string_scope.
Local Open Scope list_scope.
Local Open Scope monad_scope.

(** ** Values of the caller *)

(** Modelled from the spec: the dtype constants of the [oneflow] package,
    which is not under src/.  The spec does not list them; the source names
    [oneflow.int8] alone and tests for it by identity ([is]), so the
    constants are an enumeration in which [int8] is one case. *)
Module oneflow.

Inductive dtype : Type :=
| char | float32 | double | int8 | int32 | int64 | uint8.

Definition dtype_is (a b : dtype) : bool :=
  match a, b with
  | char, char | float32, float32 | double, double | int8, int8
  | int32, int32 | int64, int64 | uint8, uint8 => true
  | _, _ => false
  end.

End oneflow.

(** Python values that reach the [axis] parameter.  A [list] is a mutable
    object and is passed by reference; a tuple is immutable and is its
    elements.  [Sized] are the values for which
    [isinstance(axis, collections.Sized)] holds. *)
Module py.

Definition ref : Type := nat.

(** The store of list objects: every reference holds the current elements of
    its list. *)
Definition store : Type := ref -> list Z.

Inductive Sized : Type :=
| List (r : ref)
| Tuple (xs : list Z).

Inductive object : Type :=
| None_
| Int (i : Z)
| Seq (s : Sized).

(** [list(s)]: a new list with the elements of [s], in iteration order. *)
Definition list_ (h : store) (s : Sized) : list Z :=
  match s with
  | List r => h r
  | Tuple xs => xs
  end.

(** [l[:] = ys] on the caller's side: the list object at [r] gets new
    elements, every other object is left alone. *)
Definition setitems (r : ref) (ys : list Z) (h : store) : store :=
  fun r' => if Nat.eqb r' r then ys else h r'.

(** Values by structure, the way [==] compares them: what an [axis]
    argument denotes in a store, and what a repeated integer field reads
    as. *)
Inductive value : Type :=
| VNone
| VInt (i : Z)
| VList (xs : list Z)
| VTuple (xs : list Z).

Definition value_of (h : store) (o : object) : value :=
  match o with
  | None_ => VNone
  | Int i => VInt i
  | Seq (List r) => VList (h r)
  | Seq (Tuple xs) => VTuple xs
  end.

End py.

(** The two attributes [reduce_sum] reads from [input_tensor]. *)
Record Blob : Type := mkBlob {
  dtype : oneflow.dtype;
  logical_blob_name : string
}.

(** ** Messages *)

(** Modelled from the spec: the message types of [op_conf_pb2], which is
    generated code and not under src/.  "Operator configuration (op_conf): a
    descriptor object specifying one node in a computation graph (operation
    kind, input/output names, parameters)".  A singular field is [None]
    until it is set; reading an unset field gives the default of its type;
    a repeated field is the list of its elements and starts empty.  The
    operation kind is the sub-message that is present. *)
Module op_conf_util.

Record ReduceSumOpConf : Type := mkReduceSumOpConf {
  in_ : option string;
  out : option string;
  axis : list Z;
  keep_dims : option bool
}.

Record OperatorConf : Type := mkOperatorConf {
  name : option string;
  reduce_sum_conf : option ReduceSumOpConf
}.

(** [OperatorConf()] *)
Definition OperatorConf_ : OperatorConf := mkOperatorConf None None.

Definition ReduceSumOpConf_ : ReduceSumOpConf :=
  mkReduceSumOpConf None None [] None.

(** Reading [op_conf.name] and [op_conf.reduce_sum_conf]. *)
Definition get_name (op : OperatorConf) : string :=
  match name op with Some s => s | None => EmptyString end.

Definition get_reduce_sum_conf (op : OperatorConf) : ReduceSumOpConf :=
  match reduce_sum_conf op with Some c => c | None => ReduceSumOpConf_ end.

(** [setattr(op_conf, "name", s)] *)
Definition set_name (s : string) (op : OperatorConf) : OperatorConf :=
  mkOperatorConf (Some s) (reduce_sum_conf op).

(** A write through [op_conf.reduce_sum_conf]: the sub-message becomes
    present and [f] is applied to it. *)
Definition on_reduce_sum_conf (f : ReduceSumOpConf -> ReduceSumOpConf)
    (op : OperatorConf) : OperatorConf :=
  mkOperatorConf (name op) (Some (f (get_reduce_sum_conf op))).

(** [setattr(c, "in", s)], [setattr(c, "out", s)],
    [c.axis[:] = xs], [setattr(c, "keep_dims", b)] *)
Definition set_in (s : string) (c : ReduceSumOpConf) : ReduceSumOpConf :=
  mkReduceSumOpConf (Some s) (out c) (axis c) (keep_dims c).

Definition set_out (s : string) (c : ReduceSumOpConf) : ReduceSumOpConf :=
  mkReduceSumOpConf (in_ c) (Some s) (axis c) (keep_dims c).

Definition assign_axis (xs : list Z) (c : ReduceSumOpConf) : ReduceSumOpConf :=
  mkReduceSumOpConf (in_ c) (out c) xs (keep_dims c).

Definition set_keep_dims (b : bool) (c : ReduceSumOpConf) : ReduceSumOpConf :=
  mkReduceSumOpConf (in_ c) (out c) (axis c) (Some b).

End op_conf_util.

(** Modelled from the spec: the message type of [logical_blob_id_pb2], not
    under src/.  "Logical blob id (lbi): a pair (operation name, output slot
    name) identifying a named output of a graph node". *)
Module logical_blob_id_util.

Record LogicalBlobId : Type := mkLogicalBlobId {
  op_name : option string;
  blob_name : option string
}.

(** [LogicalBlobId()] *)
Definition LogicalBlobId_ : LogicalBlobId := mkLogicalBlobId None None.

Definition set_op_name (s : string) (l : LogicalBlobId) : LogicalBlobId :=
  mkLogicalBlobId (Some s) (blob_name l).

Definition set_blob_name (s : string) (l : LogicalBlobId) : LogicalBlobId :=
  mkLogicalBlobId (op_name l) (Some s).

End logical_blob_id_util.

(** ** The process state *)

Record world : Type := mkWorld {
  stdout : list string;                       (* lines printed so far *)
  unique_id : nat;                            (* next id of id_util *)
  cur_job : list op_conf_util.OperatorConf;   (* operators of the job *)
  heap : py.store                             (* the caller's lists *)
}.

Definition M : Type -> Type := state world.

(** [print(s)] *)
Definition print (s : string) : M unit :=
  mkState (fun w =>
    (tt, mkWorld (stdout w ++ [s]) (unique_id w) (cur_job w) (heap w))).

(** [list(axis)], reading the caller's object. *)
Definition list_ (s : py.Sized) : M (list Z) :=
  mkState (fun w => (py.list_ (heap w) s, w)).

(** [str(n)] of a non-negative integer. *)
Definition str (n : nat) : string := NilEmpty.string_of_uint (Nat.to_uint n).

(** Modelled from the spec: [id_util.UniqueStr], not under src/; the
    collaborator that makes a name from a prefix: the prefix followed by
    the next id of a process-wide counter, which it advances. *)
Module id_util.

Definition UniqueStr (prefix : string) : M string :=
  mkState (fun w =>
    ((prefix ++ str (unique_id w))%string,
     mkWorld (stdout w) (S (unique_id w)) (cur_job w) (heap w))).

End id_util.

(** Modelled from the spec: [compile_context.CurJobAddOp], not under src/.
    "Job: the in-progress graph-construction context that accumulates
    operator descriptors prior to compilation and execution": the job is
    the sequence of the descriptors handed over, each as it was at the
    hand-over; the call leaves the descriptor it is given as it is. *)
Module compile_context.

Definition CurJobAddOp (op_conf : op_conf_util.OperatorConf) : M unit :=
  mkState (fun w =>
    (tt, mkWorld (stdout w) (unique_id w) (cur_job w ++ [op_conf]) (heap w))).

End compile_context.

(** Modelled from the spec: [remote_blob.RemoteBlob], not under src/: "a
    handle to the operation's output", made from the logical blob id it is
    constructed with. *)
Module remote_blob_util.

Record RemoteBlob : Type := mkRemoteBlob {
  lbi : logical_blob_id_util.LogicalBlobId
}.

(** [RemoteBlob(lbi)] *)
Definition RemoteBlob_ (l : logical_blob_id_util.LogicalBlobId) : RemoteBlob :=
  mkRemoteBlob l.

End remote_blob_util.

(** ** [reduce_sum] *)

Definition warning (lbn : string) : string :=
  ("warnning: int 8 blob: " ++ lbn
     ++ " is used in a reduce sum, could lead to overflow")%string.

Import op_conf_util logical_blob_id_util remote_blob_util.

Definition reduce_sum (input_tensor : Blob) (axis : py.object)
    (keepdims : bool) (name : option string) : M RemoteBlob :=
  (* if input_tensor.dtype is oneflow.int8: print(...) *)
  (if oneflow.dtype_is (dtype input_tensor) oneflow.int8
   then print (warning (logical_blob_name input_tensor))
   else ret tt) ;;
  let op_conf := OperatorConf_ in
  (* name if name is not None else id_util.UniqueStr("ReduceSum_") *)
  n <- match name with
       | Some n => ret n
       | None => id_util.UniqueStr "ReduceSum_"
       end ;;
  let op_conf := set_name n op_conf in
  let op_conf :=
    on_reduce_sum_conf (set_in (logical_blob_name input_tensor)) op_conf in
  let op_conf := on_reduce_sum_conf (set_out "out") op_conf in
  (* if axis is not None:
       axis[:] = list(axis) if isinstance(axis, Sized) else [axis] *)
  op_conf <- match axis with
             | py.None_ => ret op_conf
             | py.Seq s =>
                 xs <- list_ s ;;
                 ret (on_reduce_sum_conf (assign_axis xs) op_conf)
             | py.Int i =>
                 ret (on_reduce_sum_conf (assign_axis [i]) op_conf)
             end ;;
  let op_conf := on_reduce_sum_conf (set_keep_dims keepdims) op_conf in
  compile_context.CurJobAddOp op_conf ;;
  let lbi := LogicalBlobId_ in
  let lbi := set_op_name (get_name op_conf) lbi in
  let lbi := set_blob_name "out" lbi in
  ret (RemoteBlob_ lbi).

(** A call site: an argument left out takes the default of the signature
    [reduce_sum(input_tensor, axis=None, keepdims=False, name=None)]. *)
Definition or_default {A : Type} (d : A) (o : option A) : A :=
  match o with Some a => a | None => d end.

Definition call_reduce_sum (input_tensor : Blob) (axis : option py.object)
    (keepdims : option bool) (name : option (option string)) : M RemoteBlob :=
  reduce_sum input_tensor (or_default py.None_ axis)
    (or_default false keepdims) (or_default None name).

(** ** [reduce_sum] with the call that raises

    [reduce_sum] above is the run of a call that returns.  One statement of
    the source can raise on well-typed arguments: the slice assignment to
    the repeated [axis] field, when an element does not fit the field.
    Here the function is written once more with that outcome: a computation
    that ends in an exception or in a value, and leaves the state as it is
    at that point. *)
Module Outcome.

Inductive exception : Type :=
| ValueError.

Definition E : Type -> Type := eitherT exception M.

(** The outcome of [m] run from [w], and the state it leaves. *)
Definition run {A : Type} (m : E A) (w : world) : (exception + A) * world :=
  runState (unEitherT m) w.

(** A signed 32-bit integer. *)
Definition int32 (i : Z) : bool :=
  ((- 2 ^ 31 <=? i) && (i <=? 2 ^ 31 - 1))%Z.

(** Modelled from the spec: the check that the repeated [axis] field makes
    on the elements assigned to it.  It belongs to the message type of
    [op_conf_pb2], which is not under src/; the spec names the descriptor
    and is silent on the types of its fields.  The field holds signed
    32-bit integers: [c.axis[:] = xs] with an element outside that range
    raises [ValueError] and assigns nothing. *)
Definition assign_axis (xs : list Z) (op_conf : OperatorConf) : E OperatorConf :=
  if forallb int32 xs
  then ret (on_reduce_sum_conf (op_conf_util.assign_axis xs) op_conf)
  else raise ValueError.

Definition reduce_sum (input_tensor : Blob) (axis : py.object)
    (keepdims : bool) (name : option string) : E RemoteBlob :=
  (* if input_tensor.dtype is oneflow.int8: print(...) *)
  lift (if oneflow.dtype_is (dtype input_tensor) oneflow.int8
        then print (warning (logical_blob_name input_tensor))
        else ret tt) ;;
  let op_conf := OperatorConf_ in
  (* name if name is not None else id_util.UniqueStr("ReduceSum_") *)
  n <- lift (match name with
             | Some n => ret n
             | None => id_util.UniqueStr "ReduceSum_"
             end) ;;
  let op_conf := set_name n op_conf in
  let op_conf :=
    on_reduce_sum_conf (set_in (logical_blob_name input_tensor)) op_conf in
  let op_conf := on_reduce_sum_conf (set_out "out") op_conf in
  (* if axis is not None:
       axis[:] = list(axis) if isinstance(axis, Sized) else [axis] *)
  op_conf <- match axis with
             | py.None_ => ret op_conf
             | py.Seq s =>
                 xs <- lift (list_ s) ;;
                 assign_axis xs op_conf
             | py.Int i => assign_axis [i] op_conf
             end ;;
  let op_conf := on_reduce_sum_conf (set_keep_dims keepdims) op_conf in
  lift (compile_context.CurJobAddOp op_conf) ;;
  let lbi := LogicalBlobId_ in
  let lbi := set_op_name (get_name op_conf) lbi in
  let lbi := set_blob_name "out" lbi in
  ret (RemoteBlob_ lbi).

End Outcome.

(** The caller overwrites the elements of one of its own lists
    ([l[:] = ys]). *)
Definition caller_setitems (r : py.ref) (ys : list Z) : M unit :=
  mkState (fun w =>
    (tt, mkWorld (stdout w) (unique_id w) (cur_job w)
           (py.setitems r ys (heap w)))).

(** ** Observations *)

(** The descriptor that reached the job last when [m] is run from [w]. *)
Definition registered {A : Type} (m : M A) (w : world) : OperatorConf :=
  last (cur_job (execState m w)) OperatorConf_.

(** What the [axis] field of a descriptor reads as. *)
Definition stored_axis (op_conf : OperatorConf) : py.value :=
  py.VList (axis (get_reduce_sum_conf op_conf)).

(** The [axis] field reads as the very value the caller passed. *)
Definition axis_stored_unchanged (x : Blob) (a : py.object) (kd : bool)
    (nm : option string) (w : world) : Prop :=
  stored_axis (registered (reduce_sum x a kd nm) w) = py.value_of (heap w) a.

(** The name [reduce_sum] gives the operator, the elements it writes to
    the [axis] field, and the lines it prints. *)
Definition op_name_in (name : option string) (w : world) : string :=
  match name with
  | Some n => n
  | None => ("ReduceSum_" ++ str (unique_id w))%string
  end.

Definition axis_elements (h : py.store) (axis : py.object) : list Z :=
  match axis with
  | py.None_ => []
  | py.Int i => [i]
  | py.Seq s => py.list_ h s
  end.

Definition printed (input_tensor : Blob) : list string :=
  if oneflow.dtype_is (dtype input_tensor) oneflow.int8
  then [warning (logical_blob_name input_tensor)]
  else [].

(** The elements of [axis] all fit the [axis] field. *)
Definition axis_fits (h : py.store) (axis : py.object) : bool :=
  match axis with
  | py.None_ => true
  | py.Int i => Outcome.int32 i
  | py.Seq (py.Tuple xs) => forallb Outcome.int32 xs
  | py.Seq (py.List r) => forallb Outcome.int32 (h r)
  end.

(** The call is not turned away: it ends in a handle. *)
Definition returns_handle (x : Blob) (a : py.object) (kd : bool)
    (nm : option string) (w : world) : Prop :=
  exists b : RemoteBlob,
    fst (Outcome.run (Outcome.reduce_sum x a kd nm) w) = inr b.

(** ** Several calls *)

(** The arguments of one call. *)
Record call : Type := mkCall {
  arg_input_tensor : Blob;
  arg_axis : py.object;
  arg_keepdims : bool;
  arg_name : option string
}.

Definition reduce_sum_of (c : call) : M RemoteBlob :=
  reduce_sum (arg_input_tensor c) (arg_axis c) (arg_keepdims c) (arg_name c).

(** A caller that makes the calls of [cs] one after the other,
    [[reduce_sum(c.input_tensor, c.axis, c.keepdims, c.name) for c in cs]];
    the handles come back in the order of the calls. *)
Fixpoint reduce_sum_each (cs : list call) : M (list RemoteBlob) :=
  match cs with
  | [] => ret []
  | c :: cs' =>
      b <- reduce_sum_of c ;;
      bs <- reduce_sum_each cs' ;;
      ret (b :: bs)
  end.

(** The descriptors that running [m] from [w] adds to the job. *)
Definition added {A : Type} (m : M A) (w : world) : list OperatorConf :=
  skipn (length (cur_job w)) (cur_job (execState m w)).

(** A call that passes no name, and a call on an [int8] input. *)
Definition unnamed (c : call) : bool :=
  match arg_name c with
  | None => true
  | Some _ => false
  end.

Definition on_int8 (c : call) : bool :=
  oneflow.dtype_is (dtype (arg_input_tensor c)) oneflow.int8.

(** The descriptors that the unnamed calls of [cs] have added, in order. *)
Definition added_unnamed (cs : list call) (w : world) : list OperatorConf :=
  map snd
    (filter (fun p => unnamed (fst p))
       (combine cs (added (reduce_sum_each cs) w))).

(** ** Sample states and inputs *)

(** A process that has printed nothing and named nothing, with an empty
    job; the caller holds the list [[2; 0]] at reference [0]. *)
Definition world0 : world :=
  mkWorld [] 0 [] (fun r => if Nat.eqb r 0 then [2; 0]%Z else []).

(** Another process with the same id counter and the same list at
    reference [0]; it has printed a line and its job holds an operator. *)
Definition world1 : world :=
  mkWorld ["hello"] 0 [OperatorConf_]
    (fun r => if Nat.eqb r 0 then [2; 0]%Z else [7]%Z).

Definition blob0 : Blob := mkBlob oneflow.int32 "x/out".

Definition blob8 : Blob := mkBlob oneflow.int8 "x/out".

(** Three calls: on [blob8] with the list at reference [0] and no name, on
    [blob0] with axis [1] and the name "sum", on [blob8] with no axis and
    no name. *)
Definition calls0 : list call :=
  [mkCall blob8 (py.Seq (py.List 0)) true None;
   mkCall blob0 (py.Int 1) false (Some "sum");
   mkCall blob8 py.None_ false None].

(** [reduce_sum(blob8, axis=l, keepdims=True)] with [l] the list at
    reference [0], in a process that has drawn seven ids. *)
Example reduce_sum_int8_list :
  let w := mkWorld [] 7 [] (heap world0) in
  let m := reduce_sum blob8 (py.Seq (py.List 0)) true None in
  evalState m w =
    mkRemoteBlob (mkLogicalBlobId (Some "ReduceSum_7") (Some "out")) /\
  cur_job (execState m w) =
    [mkOperatorConf (Some "ReduceSum_7")
       (Some (mkReduceSumOpConf (Some "x/out") (Some "out") [2; 0]%Z
                (Some true)))] /\
  stdout (execState m w) =
    ["warnning: int 8 blob: x/out is used in a reduce sum, could lead to overflow"] /\
  unique_id (execState m w) = 8.
Proof. repeat split. Qed.

(** [reduce_sum(blob0, axis=1, name="sum")] and [reduce_sum(blob0)]. *)
Example reduce_sum_int32_int :
  let m := call_reduce_sum blob0 (Some (py.Int 1)) None (Some (Some "sum")) in
  evalState m world1 =
    mkRemoteBlob (mkLogicalBlobId (Some "sum") (Some "out")) /\
  cur_job (execState m world1) =
    [OperatorConf_;
     mkOperatorConf (Some "sum")
       (Some (mkReduceSumOpConf (Some "x/out") (Some "out") [1%Z]
                (Some false)))] /\
  stdout (execState m world1) = ["hello"] /\
  unique_id (execState m world1) = 0.
Proof. repeat split. Qed.

Example reduce_sum_defaults :
  registered (call_reduce_sum blob0 None None None) world0 =
    mkOperatorConf (Some "ReduceSum_0")
      (Some (mkReduceSumOpConf (Some "x/out") (Some "out") [] (Some false))).
Proof. reflexivity. Qed.

(** ** One run of [reduce_sum] *)

Lemma dtype_is_int8_false (d : oneflow.dtype) :
  d <> oneflow.int8 -> oneflow.dtype_is d oneflow.int8 = false.
Proof. destruct d; simpl; congruence. Qed.

Lemma runState_bind {A B : Type} (m : M A) (k : A -> M B) (w : world) :
  runState (bind m k) w = let (v, w') := runState m w in runState (k v) w'.
Proof. reflexivity. Qed.

Section Run.

Variables (x : Blob) (a : py.object) (kd : bool) (nm : option string).
Variable w : world.

(** The value returned and the state left by a call, in full. *)
Lemma reduce_sum_run :
  runState (reduce_sum x a kd nm) w =
    (mkRemoteBlob (mkLogicalBlobId (Some (op_name_in nm w)) (Some "out")),
     mkWorld
       (stdout w ++ printed x)
       (match nm with Some _ => unique_id w | None => S (unique_id w) end)
       (cur_job w ++
          [mkOperatorConf (Some (op_name_in nm w))
             (Some (mkReduceSumOpConf (Some (logical_blob_name x))
                      (Some "out") (axis_elements (heap w) a) (Some kd)))])
       (heap w)).
Proof.
  unfold reduce_sum, printed.
  destruct (oneflow.dtype_is (dtype x) oneflow.int8);
    destruct nm as [n|]; destruct a as [| i | s]; cbn;
    rewrite ?app_nil_r; reflexivity.
Qed.

Lemma eval_reduce_sum :
  evalState (reduce_sum x a kd nm) w =
    mkRemoteBlob (mkLogicalBlobId (Some (op_name_in nm w)) (Some "out")).
Proof. unfold evalState. rewrite reduce_sum_run. reflexivity. Qed.

Lemma job_reduce_sum :
  cur_job (execState (reduce_sum x a kd nm) w) =
    cur_job w ++
      [mkOperatorConf (Some (op_name_in nm w))
         (Some (mkReduceSumOpConf (Some (logical_blob_name x))
                  (Some "out") (axis_elements (heap w) a) (Some kd)))].
Proof. unfold execState. rewrite reduce_sum_run. reflexivity. Qed.

Lemma stdout_reduce_sum :
  stdout (execState (reduce_sum x a kd nm) w) = stdout w ++ printed x.
Proof. unfold execState. rewrite reduce_sum_run. reflexivity. Qed.

Lemma unique_id_reduce_sum :
  unique_id (execState (reduce_sum x a kd nm) w) =
    match nm with Some _ => unique_id w | None => S (unique_id w) end.
Proof. unfold execState. rewrite reduce_sum_run. reflexivity. Qed.

Lemma heap_reduce_sum :
  heap (execState (reduce_sum x a kd nm) w) = heap w.
Proof. unfold execState. rewrite reduce_sum_run. reflexivity. Qed.

Lemma registered_reduce_sum :
  registered (reduce_sum x a kd nm) w =
    mkOperatorConf (Some (op_name_in nm w))
      (Some (mkReduceSumOpConf (Some (logical_blob_name x))
               (Some "out") (axis_elements (heap w) a) (Some kd))).
Proof. unfold registered. rewrite job_reduce_sum. apply last_last. Qed.

End Run.

Create Rewrite HintDb reduce_sum.
#[local] Hint Rewrite registered_reduce_sum job_reduce_sum eval_reduce_sum
  stdout_reduce_sum unique_id_reduce_sum heap_reduce_sum : reduce_sum.

(** Rewrite every observation of a [reduce_sum] run to its value. *)
Ltac run_reduce_sum := autorewrite with reduce_sum.

(** ** The call that raises *)

(** A call whose [axis] fits is the run of [reduce_sum]; any other call
    ends in [ValueError] after the warning and the name, with the job as it
    was. *)
Lemma outcome_reduce_sum_run (x : Blob) (a : py.object) (kd : bool)
    (nm : option string) (w : world) :
  Outcome.run (Outcome.reduce_sum x a kd nm) w =
    if axis_fits (heap w) a
    then (inr (evalState (reduce_sum x a kd nm) w),
          execState (reduce_sum x a kd nm) w)
    else (inl Outcome.ValueError,
          mkWorld (stdout w ++ printed x)
            (match nm with Some _ => unique_id w | None => S (unique_id w) end)
            (cur_job w) (heap w)).
Proof.
  unfold evalState, execState. rewrite reduce_sum_run.
  unfold Outcome.run, Outcome.reduce_sum, Outcome.assign_axis, printed.
  destruct w as [lines id job h].
  destruct (oneflow.dtype_is (dtype x) oneflow.int8);
    destruct nm as [n |]; destruct a as [| i | [r | xs]]; cbn;
    rewrite ?app_nil_r; try reflexivity;
    match goal with
    | |- context [Outcome.int32 ?i && true] =>
        rewrite (andb_true_r (Outcome.int32 i));
        destruct (Outcome.int32 i); reflexivity
    | |- context [forallb Outcome.int32 ?l] =>
        destruct (forallb Outcome.int32 l); reflexivity
    end.
Qed.

(** ** Generated names *)

Lemma str_inj (n m : nat) : str n = str m -> n = m.
Proof.
  unfold str. intros E.
  apply (f_equal NilEmpty.uint_of_string) in E.
  rewrite !NilEmpty.usu in E.
  injection E as E. now apply Unsigned.to_uint_inj.
Qed.

Lemma some_inj {A : Type} (u v : A) : Some u = Some v -> u = v.
Proof. congruence. Qed.

Lemma append_inj_r (p s t : string) : (p ++ s = p ++ t)%string -> s = t.
Proof.
  induction p as [| c p IH]; simpl; intros E;
    [exact E | injection E as E; auto].
Qed.

Lemma prefix_append (p s : string) : prefix p (p ++ s)%string = true.
Proof.
  induction p as [| c p IH]; simpl.
  - now destruct s.
  - destruct (Ascii.ascii_dec c c); [exact IH | congruence].
Qed.

(** Two arguments that denote the same value have the same elements. *)
Lemma axis_elements_value_of (h1 h2 : py.store) (a : py.object) :
  py.value_of h1 a = py.value_of h2 a ->
  axis_elements h1 a = axis_elements h2 a.
Proof.
  destruct a as [| i | [r | xs]]; simpl; intros E;
    [reflexivity | reflexivity | injection E as E; exact E | reflexivity].
Qed.

(** ** The builder's properties *)




(** C3: the [keep_dims] field of the registered descriptor is exactly the
    caller's [keepdims]; a call that leaves [keepdims] out stores the
    default, [False]. *)
Theorem keep_dims_is_keepdims (x : Blob) (a : py.object) (kd : bool)
    (nm : option string) (w : world) :
  keep_dims (get_reduce_sum_conf (registered (reduce_sum x a kd nm) w)) =
    Some kd /\
  registered (call_reduce_sum x (Some a) (Some kd) (Some nm)) w =
    registered (reduce_sum x a kd nm) w /\
  forall (a' : option py.object) (nm' : option (option string)),
    keep_dims
      (get_reduce_sum_conf (registered (call_reduce_sum x a' None nm') w)) =
      Some false.
Proof.
  split; [| split].
  - run_reduce_sum. reflexivity.
  - reflexivity.
  - intros a' nm'. unfold call_reduce_sum. run_reduce_sum. reflexivity.
Qed.

(** C4 as it is stated fails: [reduce_sum(x, axis=2147483648)] ends in
    [ValueError] at the assignment to the [axis] field and returns no
    handle. *)
Lemma reduce_sum_turns_away_unfit_axis :
  ~ returns_handle blob0 (py.Int 2147483648) false None world0.
Proof. intros [b H]. vm_compute in H. discriminate. Qed.

(** C4, amended: [reduce_sum] has no check of its own, and a call is
    turned away in one case only, by the [axis] field: when an element of
    [axis] is not a signed 32-bit integer the call ends in [ValueError]
    with nothing added to the job and no handle.  Every other call, and
    every call without an axis, runs to its end: one operator is added to
    the job and its handle is returned.  An [int8] input only has the
    warning printed: the outcome of the call and the job it leaves are
    those of the same call on an input of any other dtype. *)
Theorem reduce_sum_turns_away_only_unfit_axis (lbn : string) (a : py.object)
    (kd : bool) (nm : option string) (w : world) (d : oneflow.dtype) :
  let m8 := Outcome.reduce_sum (mkBlob oneflow.int8 lbn) a kd nm in
  let md := Outcome.reduce_sum (mkBlob d lbn) a kd nm in
  (axis_fits (heap w) a = true ->
   exists op_conf b,
     fst (Outcome.run md w) = inr b /\
     cur_job (snd (Outcome.run md w)) = cur_job w ++ [op_conf] /\
     lbi b = mkLogicalBlobId (Some (get_name op_conf)) (Some "out")) /\
  (axis_fits (heap w) a = false ->
   fst (Outcome.run md w) = inl Outcome.ValueError /\
   cur_job (snd (Outcome.run md w)) = cur_job w) /\
  returns_handle (mkBlob d lbn) py.None_ kd nm w /\
  stdout (snd (Outcome.run m8 w)) = stdout w ++ [warning lbn] /\
  cur_job (snd (Outcome.run m8 w)) = cur_job (snd (Outcome.run md w)) /\
  fst (Outcome.run m8 w) = fst (Outcome.run md w).
Proof.
  cbv zeta. unfold returns_handle. rewrite !outcome_reduce_sum_run.
  cbn [axis_fits].
  split; [| split; [| split; [| split; [| split]]]].
  - intros ->. cbn [fst snd]. run_reduce_sum.
    eexists. eexists. repeat split.
  - intros ->. split; reflexivity.
  - eexists. reflexivity.
  - destruct (axis_fits (heap w) a); cbn [fst snd]; run_reduce_sum;
      reflexivity.
  - destruct (axis_fits (heap w) a); cbn [fst snd]; run_reduce_sum;
      reflexivity.
  - destruct (axis_fits (heap w) a); cbn [fst snd]; run_reduce_sum;
      reflexivity.
Qed.

(** A call with the axis [(2147483647, -2147483648)] returns a handle and
    adds one operator; a call with the axis [[1, -2147483649]] ends in
    [ValueError] and leaves the job empty. *)
Lemma reduce_sum_turns_away_only_unfit_axis_witness :
  (exists op_conf b,
     fst (Outcome.run
            (Outcome.reduce_sum blob0
               (py.Seq (py.Tuple [2147483647; -2147483648]%Z)) true None)
            world0) = inr b /\
     cur_job (snd (Outcome.run
                     (Outcome.reduce_sum blob0
                        (py.Seq (py.Tuple [2147483647; -2147483648]%Z))
                        true None)
                     world0)) = [op_conf] /\
     lbi b = mkLogicalBlobId (Some (get_name op_conf)) (Some "out")) /\
  fst (Outcome.run
         (Outcome.reduce_sum blob0 (py.Seq (py.Tuple [1; -2147483649]%Z))
            true None)
         world0) = inl Outcome.ValueError /\
  cur_job (snd (Outcome.run
                  (Outcome.reduce_sum blob0
                     (py.Seq (py.Tuple [1; -2147483649]%Z)) true None)
                  world0)) = [].
Proof.
  split.
  - apply (proj1 (reduce_sum_turns_away_only_unfit_axis "x/out"
                    (py.Seq (py.Tuple [2147483647; -2147483648]%Z))
                    true None world0 oneflow.int32)).
    reflexivity.
  - apply (proj1 (proj2 (reduce_sum_turns_away_only_unfit_axis "x/out"
                           (py.Seq (py.Tuple [1; -2147483649]%Z))
                           true None world0 oneflow.int32))).
    reflexivity.
Defined.

(** C5: the returned handle carries the logical blob id (operator name,
    output slot) of the operator just registered: its [op_name] is the
    [name] field of the descriptor handed to [CurJobAddOp], its
    [blob_name] is "out", the string in the descriptor's [out] field. *)
Theorem handle_is_lbi_of_registered_op (x : Blob) (a : py.object)
    (kd : bool) (nm : option string) (w : world) :
  exists op_conf,
    cur_job (execState (reduce_sum x a kd nm) w) =
      cur_job (execState (compile_context.CurJobAddOp op_conf) w) /\
    op_name (lbi (evalState (reduce_sum x a kd nm) w)) = name op_conf /\
    (exists n, name op_conf = Some n) /\
    blob_name (lbi (evalState (reduce_sum x a kd nm) w)) = Some "out" /\
    blob_name (lbi (evalState (reduce_sum x a kd nm) w)) =
      out (get_reduce_sum_conf op_conf).
Proof.
  exists (registered (reduce_sum x a kd nm) w). run_reduce_sum.
  repeat split. eexists; reflexivity.
Qed.


(** C7: a name given by the caller is the descriptor's [name], as it is,
    and no id is drawn.  Without a name, the descriptor's [name] is the
    string [id_util.UniqueStr] returns for the prefix "ReduceSum_": it
    begins with "ReduceSum_", one id is drawn, and the string is fresh: it
    differs from the one generated at any other value of the id counter, so
    that the next unnamed call gets another name. *)
Theorem operator_name (x : Blob) (a : py.object) (kd : bool) (w : world) :
  (forall n : string,
     name (registered (reduce_sum x a kd (Some n)) w) = Some n /\
     unique_id (execState (reduce_sum x a kd (Some n)) w) = unique_id w) /\
  name (registered (reduce_sum x a kd None) w) =
    Some (evalState (id_util.UniqueStr "ReduceSum_") w) /\
  prefix "ReduceSum_" (evalState (id_util.UniqueStr "ReduceSum_") w) = true /\
  unique_id (execState (reduce_sum x a kd None) w) = S (unique_id w) /\
  (forall w' : world,
     evalState (id_util.UniqueStr "ReduceSum_") w' =
       evalState (id_util.UniqueStr "ReduceSum_") w ->
     unique_id w' = unique_id w) /\
  (forall (x' : Blob) (a' : py.object) (kd' : bool),
     name (registered (reduce_sum x a kd None ;;
                       reduce_sum x' a' kd' None) w) <>
       name (registered (reduce_sum x a kd None) w)).
Proof.
  split; [| split; [| split; [| split; [| split]]]].
  - intros n. run_reduce_sum. split; reflexivity.
  - run_reduce_sum. reflexivity.
  - apply prefix_append.
  - apply unique_id_reduce_sum.
  - intros w' E. apply str_inj, (append_inj_r "ReduceSum_"), E.
  - intros x' a' kd'. rewrite registered_reduce_sum.
    unfold registered, execState.
    rewrite runState_bind, reduce_sum_run, reduce_sum_run.
    cbn [snd cur_job]. rewrite last_last.
    cbn [name op_name_in unique_id]. intros E.
    apply some_inj, (append_inj_r "ReduceSum_"), str_inj in E. lia.
Qed.

(** The naming theorem at two calls from [world0], one named "sum" and one
    unnamed, and at [world1], whose id counter is that of [world0]. *)
Lemma operator_name_witness :
  name (registered (reduce_sum blob0 (py.Int 1) false (Some "sum")) world0) =
    Some "sum" /\
  name (registered (reduce_sum blob0 (py.Int 1) false None) world0) =
    Some "ReduceSum_0" /\
  unique_id world1 = unique_id world0.
Proof.
  destruct (operator_name blob0 (py.Int 1) false world0)
    as (Hn & Hu & _ & _ & Hinj & _).
  split; [exact (proj1 (Hn "sum")) | split; [exact Hu |]].
  apply Hinj. reflexivity.
Defined.

(** C8: the dtype of the input reaches nothing but the standard output.
    Take two calls whose inputs have the same logical blob name, one of
    dtype [int8] and one not, with the same [axis], [keepdims] and [name],
    run from states that agree on the id counter and on the value of
    [axis]: one and the same descriptor is handed to [CurJobAddOp] and the
    handles returned carry one and the same logical blob id; the [int8]
    call has printed the warning and the other call has printed nothing. *)
Theorem dtype_only_reaches_stdout (x1 x2 : Blob) (a : py.object)
    (kd : bool) (nm : option string) (w1 w2 : world) :
  dtype x1 = oneflow.int8 ->
  dtype x2 <> oneflow.int8 ->
  logical_blob_name x1 = logical_blob_name x2 ->
  unique_id w1 = unique_id w2 ->
  py.value_of (heap w1) a = py.value_of (heap w2) a ->
  exists op_conf l,
    cur_job (execState (reduce_sum x1 a kd nm) w1) = cur_job w1 ++ [op_conf] /\
    cur_job (execState (reduce_sum x2 a kd nm) w2) = cur_job w2 ++ [op_conf] /\
    lbi (evalState (reduce_sum x1 a kd nm) w1) = l /\
    lbi (evalState (reduce_sum x2 a kd nm) w2) = l /\
    unique_id (execState (reduce_sum x1 a kd nm) w1) =
      unique_id (execState (reduce_sum x2 a kd nm) w2) /\
    stdout (execState (reduce_sum x1 a kd nm) w1) =
      stdout w1 ++ [warning (logical_blob_name x1)] /\
    stdout (execState (reduce_sum x2 a kd nm) w2) = stdout w2.
Proof.
  intros H8 Hn Hlbn Hid Hval.
  exists (registered (reduce_sum x2 a kd nm) w2),
    (lbi (evalState (reduce_sum x2 a kd nm) w2)).
  run_reduce_sum.
  unfold printed, op_name_in. rewrite H8, (dtype_is_int8_false _ Hn).
  rewrite Hlbn, Hid, (axis_elements_value_of _ _ _ Hval), app_nil_r.
  repeat split.
Qed.

(** The same call on [blob8] from [world0] and on [blob0] from [world1]:
    both jobs receive one and the same descriptor. *)
Lemma dtype_only_reaches_stdout_witness :
  exists op_conf,
    cur_job (execState (reduce_sum blob8 (py.Seq (py.List 0)) true None)
               world0) = [op_conf] /\
    cur_job (execState (reduce_sum blob0 (py.Seq (py.List 0)) true None)
               world1) = [OperatorConf_; op_conf] /\
    stdout (execState (reduce_sum blob8 (py.Seq (py.List 0)) true None)
              world0) = [warning "x/out"].
Proof.
  destruct (dtype_only_reaches_stdout blob8 blob0 (py.Seq (py.List 0))
              true None world0 world1)
    as (op_conf & l & H1 & H2 & _ & _ & _ & H6 & _);
    [reflexivity | discriminate | reflexivity | reflexivity | reflexivity |].
  exists op_conf. split; [exact H1 | split; [exact H2 | exact H6]].
Defined.


(** ** Several calls, one after the other *)

Lemma skipn_length_app {A : Type} (l l' : list A) :
  skipn (length l) (l ++ l') = l'.
Proof. induction l as [| u l IH]; simpl; [reflexivity | exact IH]. Qed.

Lemma run_each_cons (c : call) (cs : list call) (w : world) :
  runState (reduce_sum_each (c :: cs)) w =
    let (b, w1) := runState (reduce_sum_of c) w in
    let (bs, w2) := runState (reduce_sum_each cs) w1 in
    (b :: bs, w2).
Proof. reflexivity. Qed.

Lemma exec_each_cons (c : call) (cs : list call) (w : world) :
  execState (reduce_sum_each (c :: cs)) w =
    execState (reduce_sum_each cs) (execState (reduce_sum_of c) w).
Proof.
  unfold execState. rewrite run_each_cons.
  destruct (runState (reduce_sum_of c) w) as [b w1]. simpl.
  destruct (runState (reduce_sum_each cs) w1) as [bs w2]. reflexivity.
Qed.

Lemma eval_each_cons (c : call) (cs : list call) (w : world) :
  evalState (reduce_sum_each (c :: cs)) w =
    evalState (reduce_sum_of c) w ::
      evalState (reduce_sum_each cs) (execState (reduce_sum_of c) w).
Proof.
  unfold evalState, execState. rewrite run_each_cons.
  destruct (runState (reduce_sum_of c) w) as [b w1]. simpl.
  destruct (runState (reduce_sum_each cs) w1) as [bs w2]. reflexivity.
Qed.

(** The job only grows: what it held stays in front. *)
Lemma job_each (cs : list call) :
  forall w : world,
    cur_job (execState (reduce_sum_each cs) w) =
      cur_job w ++ added (reduce_sum_each cs) w.
Proof.
  induction cs as [| c cs IH]; intros w.
  - unfold added. simpl. rewrite skipn_all, app_nil_r. reflexivity.
  - unfold added. rewrite exec_each_cons, IH.
    unfold reduce_sum_of at 1 3. rewrite job_reduce_sum.
    rewrite <- app_assoc, skipn_length_app. reflexivity.
Qed.

Lemma added_each_cons (c : call) (cs : list call) (w : world) :
  added (reduce_sum_each (c :: cs)) w =
    registered (reduce_sum_of c) w ::
      added (reduce_sum_each cs) (execState (reduce_sum_of c) w).
Proof.
  unfold added at 1. rewrite exec_each_cons, job_each.
  unfold reduce_sum_of at 1. rewrite job_reduce_sum.
  rewrite <- app_assoc, skipn_length_app.
  unfold reduce_sum_of at 2. rewrite registered_reduce_sum. reflexivity.
Qed.

Lemma added_each_nil (w : world) : added (reduce_sum_each []) w = [].
Proof. unfold added. simpl. apply skipn_all. Qed.

Lemma heap_each (cs : list call) :
  forall w : world, heap (execState (reduce_sum_each cs) w) = heap w.
Proof.
  induction cs as [| c cs IH]; intros w; [reflexivity |].
  rewrite exec_each_cons, IH. apply heap_reduce_sum.
Qed.

Lemma unique_id_each (cs : list call) :
  forall w : world,
    unique_id (execState (reduce_sum_each cs) w) =
      unique_id w + length (filter unnamed cs).
Proof.
  induction cs as [| c cs IH]; intros w; [cbn; lia |].
  rewrite exec_each_cons, IH. unfold reduce_sum_of.
  rewrite unique_id_reduce_sum. simpl filter. unfold unnamed at 2.
  destruct (arg_name c); simpl; lia.
Qed.

Lemma generated_name_inj (j k : nat) :
  Some ("ReduceSum_" ++ str j)%string = Some ("ReduceSum_" ++ str k)%string ->
  j = k.
Proof.
  intros E. now apply some_inj, (append_inj_r "ReduceSum_"), str_inj in E.
Qed.

Lemma names_added_unnamed (cs : list call) :
  forall w : world,
    map name (added_unnamed cs w) =
      map (fun k => Some ("ReduceSum_" ++ str k)%string)
        (seq (unique_id w) (length (filter unnamed cs))).
Proof.
  induction cs as [| c cs IH]; intros w; [reflexivity |].
  unfold added_unnamed in *. rewrite added_each_cons.
  simpl combine. simpl filter. simpl fst.
  destruct (unnamed c) eqn:U; unfold unnamed in U;
    destruct (arg_name c) as [n |] eqn:E; try discriminate;
    unfold reduce_sum_of at 1; simpl; rewrite IH;
    unfold reduce_sum_of; rewrite E; run_reduce_sum; reflexivity.
Qed.


(** X2: calls made one after the other print one warning for each call on
    an [int8] input, in the order of the calls, each with the logical blob
    name of its input, and nothing else. *)
Theorem calls_print_one_warning_per_int8 (cs : list call) (w : world) :
  stdout (execState (reduce_sum_each cs) w) =
    stdout w ++
      map (fun c => warning (logical_blob_name (arg_input_tensor c)))
        (filter on_int8 cs).
Proof.
  revert w. induction cs as [| c cs IH]; intros w.
  - simpl. now rewrite app_nil_r.
  - rewrite exec_each_cons, IH. unfold reduce_sum_of.
    rewrite stdout_reduce_sum, <- app_assoc. f_equal.
    unfold printed. simpl filter. unfold on_int8 at 2.
    destruct (oneflow.dtype_is (dtype (arg_input_tensor c)) oneflow.int8);
      reflexivity.
Qed.




(** X5: the descriptor does not record the form in which [axis] was given.
    An empty list or tuple gives the run of [axis=None]: the [axis] field
    stays empty.  A list or tuple of one element [i] gives the run of
    [axis=i].  Value returned and state left are the same in each pair. *)
Theorem axis_form_is_not_recorded (x : Blob) (kd : bool)
    (nm : option string) (w : world) :
  (forall s : py.Sized,
     py.list_ (heap w) s = [] ->
     runState (reduce_sum x (py.Seq s) kd nm) w =
       runState (reduce_sum x py.None_ kd nm) w) /\
  (forall (s : py.Sized) (i : Z),
     py.list_ (heap w) s = [i] ->
     runState (reduce_sum x (py.Seq s) kd nm) w =
       runState (reduce_sum x (py.Int i) kd nm) w).
Proof.
  split; [intros s E | intros s i E]; rewrite !reduce_sum_run; simpl;
    rewrite E; reflexivity.
Qed.

(** In [world0] the list at reference [1] is empty: passing it is passing
    [None]; passing the tuple [(3,)] is passing [3]. *)
Lemma axis_form_is_not_recorded_witness :
  registered (reduce_sum blob0 (py.Seq (py.List 1)) true None) world0 =
    registered (reduce_sum blob0 py.None_ true None) world0 /\
  registered (reduce_sum blob0 (py.Seq (py.Tuple [3%Z])) true None) world0 =
    registered (reduce_sum blob0 (py.Int 3) true None) world0.
Proof.
  destruct (axis_form_is_not_recorded blob0 true None world0) as [H0 H1].
  unfold registered, execState. split.
  - rewrite (H0 (py.List 1)); reflexivity.
  - rewrite (H1 (py.Tuple [3%Z]) 3%Z); reflexivity.
Defined.


